(** * AeroSense dashboard: selection, search filter, view transitions and
      the city-data refresh of the live map

    A shallow embedding of the stateful logic of two React components:

    - [Dashboard] (components/Dashboard.tsx): the [useState] cells, the
      handlers [handleCityChange], [handleViewChange],
      [handleLoadingComplete], the search box callbacks and the derived
      list [filteredCities];
    - [LeafletMap] (components/LeafletMap.tsx): the [useState] cells and
      the asynchronous [fetchCitiesData] with its try / catch / finally;
    - [App] (App.tsx): the form, loading and dashboard screens.

    A component's state cells become a record, a handler becomes a function
    from state to state, and the asynchronous [fetchCitiesData] is split at
    its [await] into the part that runs when it is called and the part that
    runs when the request settles. *)

From Stdlib Require Import Ascii String List Bool Arith ZArith QArith Lia.
From stdpp Require Import base list strings.
Import ListNotations.

(* ================================================================== *)
(** ** JavaScript strings *)
(* ================================================================== *)

(** A JavaScript string is a sequence of UTF-16 code units. City names
    and what is typed into the search box are such sequences; [includes]
    and [===] work on the code units.

    [String.prototype.toLowerCase] is the Unicode case mapping of the
    engine: it depends on the context of a letter (capital sigma becomes
    the final or the medial small sigma) and may lengthen a string. It is
    no code of this repository: the model takes it as a parameter
    [toLowerCase : jsstring -> jsstring] wherever the code calls it.

    Texts that the code only compares with literals or displays (view
    names, labels, class names) are kept as [string]. *)
Module JsString.

Definition codeUnit := N.

Definition jsstring := list codeUnit.

(** The code units of a literal written in Basic Latin characters. *)
Definition js (s : string) : jsstring :=
  map N_of_ascii (list_ascii_of_string s).

(** [a === b] on strings. *)
Fixpoint eqb (a b : jsstring) : bool :=
  match a, b with
  | [], [] => true
  | x :: a', y :: b' => N.eqb x y && eqb a' b'
  | _, _ => false
  end.

(** [s.startsWith(q)]: [q] occurs in [s] at position 0. *)
Fixpoint startsWith (s q : jsstring) : bool :=
  match q, s with
  | [], _ => true
  | _ :: _, [] => false
  | c :: q', d :: s' => N.eqb c d && startsWith s' q'
  end.

(** [String.prototype.includes]: [q] occurs in [s] at some position,
    searched from position 0 upwards. *)
Fixpoint includes (s q : jsstring) : bool :=
  startsWith s q
  || match s with
     | [] => false
     | _ :: s' => includes s' q
     end.

End JsString.

(* ================================================================== *)
(** ** The Dashboard component *)
(* ================================================================== *)

Module Dashboard.
Import JsString.

(** [User] (../types): the fields the component reads. *)
Record User := { user_name : string; user_city : jsstring }.

(** An entry of [topCities] (../data/mockData): the fields the search
    dropdown reads. *)
Record City := { name : jsstring; aqi : Z; quality : string }.

Section WithMockData.

(** [AQIData] (../types) and [getAQIData] (../data/mockData) are not
    part of the component: they are parameters of the model. *)
Context {AQIData : Type}.
Variable getAQIData : jsstring -> AQIData.

(** The seven [useState] cells of the component. *)
Record State := {
  activeView : string;
  selectedCity : jsstring;
  aqiData : AQIData;
  searchQuery : jsstring;
  showSearchResults : bool;
  isLoading : bool;
  targetView : string
}.

(** The initial values given to [useState]. *)
Definition init (user : User) : State :=
  {| activeView := "dashboard";
     selectedCity := user_city user;
     aqiData := getAQIData (user_city user);
     searchQuery := [];
     showSearchResults := false;
     isLoading := false;
     targetView := "dashboard" |}.

Definition handleCityChange (city : jsstring) (st : State) : State :=
  {| activeView := activeView st;
     selectedCity := city;
     aqiData := getAQIData city;
     searchQuery := [];
     showSearchResults := false;
     isLoading := isLoading st;
     targetView := targetView st |}.

(** The call to [window.scrollTo] touches no state cell and is left
    out. *)
Definition handleViewChange (view : string) (st : State) : State :=
  if negb (String.eqb view (activeView st)) then
    {| activeView := activeView st;
       selectedCity := selectedCity st;
       aqiData := aqiData st;
       searchQuery := searchQuery st;
       showSearchResults := showSearchResults st;
       isLoading := true;
       targetView := view |}
  else st.

Definition handleLoadingComplete (st : State) : State :=
  {| activeView := targetView st;
     selectedCity := selectedCity st;
     aqiData := aqiData st;
     searchQuery := searchQuery st;
     showSearchResults := showSearchResults st;
     isLoading := false;
     targetView := targetView st |}.

(** [onChange] of the search input, [value] being [e.target.value]. *)
Definition onSearchChange (value : jsstring) (st : State) : State :=
  {| activeView := activeView st;
     selectedCity := selectedCity st;
     aqiData := aqiData st;
     searchQuery := value;
     showSearchResults := (0 <? length value)%nat;
     isLoading := isLoading st;
     targetView := targetView st |}.

(** [onFocus] of the search input. *)
Definition onSearchFocus (st : State) : State :=
  {| activeView := activeView st;
     selectedCity := selectedCity st;
     aqiData := aqiData st;
     searchQuery := searchQuery st;
     showSearchResults := (0 <? length (searchQuery st))%nat;
     isLoading := isLoading st;
     targetView := targetView st |}.

(** What can happen to the component: the three selection surfaces
    (dropdown, search result, map marker) all call [handleCityChange]
    with a name. *)
Inductive Event :=
| CityChange (city : jsstring)
| ViewChange (view : string)
| LoadingComplete
| SearchChange (value : jsstring)
| SearchFocus.

Definition step (st : State) (e : Event) : State :=
  match e with
  | CityChange city => handleCityChange city st
  | ViewChange view => handleViewChange view st
  | LoadingComplete => handleLoadingComplete st
  | SearchChange value => onSearchChange value st
  | SearchFocus => onSearchFocus st
  end.

Definition run (st : State) (es : list Event) : State :=
  fold_left step es st.

(** The states the component can be in for [user]. *)
Definition reachable (user : User) (st : State) : Prop :=
  exists es, st = run (init user) es.

End WithMockData.

Arguments State : clear implicits.

(** [filteredCities], as a function of the two values it is computed
    from on every render; [toLowerCase] is the engine's
    [String.prototype.toLowerCase]. *)
Definition filteredCities (toLowerCase : jsstring -> jsstring)
    (topCities : list City) (searchQuery : jsstring) : list City :=
  List.filter
    (fun city => includes (toLowerCase (name city)) (toLowerCase searchQuery))
    topCities.

(** The entries of the search dropdown as rendered: the loading screen
    replaces the whole page, the search box is absent from the "about"
    and "calculator" views, and the dropdown is there only under
    [showSearchResults && filteredCities.length > 0]. An absent dropdown
    shows no entry. *)
Definition searchDropdown {AQIData} (toLowerCase : jsstring -> jsstring)
    (topCities : list City) (st : State AQIData) : list City :=
  if isLoading st then []
  else if negb (String.eqb (activeView st) "about")
          && negb (String.eqb (activeView st) "calculator")
  then
    if showSearchResults st
       && (0 <? length (filteredCities toLowerCase topCities
                          (searchQuery st)))%nat
    then filteredCities toLowerCase topCities (searchQuery st)
    else []
  else [].

(** The view-transition state machine of the specification, read off the
    cells [activeView], [isLoading] and [targetView]. *)
Inductive ViewState :=
| Idle (active : string)
| Transitioning (active target : string).

Definition viewState {AQIData} (st : State AQIData) : ViewState :=
  if isLoading st
  then Transitioning (activeView st) (targetView st)
  else Idle (activeView st).

(** *** Invariants of the state cells *)

(** The results flag is never up on an empty query. *)
Definition searchShownOnlyForQuery {AQIData} (st : State AQIData) : Prop :=
  showSearchResults st = true -> searchQuery st <> [].

(** Outside a transition the pending target is the active view. *)
Definition idleTargetIsActive {AQIData} (st : State AQIData) : Prop :=
  isLoading st = false -> targetView st = activeView st.

(** The detail data is the mock-data lookup of the selected city. *)
Definition aqiDataOfSelected {AQIData} (getAQIData : jsstring -> AQIData)
    (st : State AQIData) : Prop :=
  aqiData st = getAQIData (selectedCity st).

End Dashboard.

(* ================================================================== *)
(** ** The LeafletMap component *)
(* ================================================================== *)

Module LeafletMap.
Import JsString.

(** A JavaScript [number]; the literals of the source are decimals, and
    none of the code below computes with them. *)
Definition number := Q.

(** [interface CityData]. *)
Record CityData := {
  name : jsstring;
  lat : number;
  lng : number;
  aqi : number;
  quality : string;
  pm25 : number;
  pm10 : number;
  o3 : number;
  no2 : number;
  so2 : number;
  co : number;
  temperature : number;
  humidity : number;
  lastUpdated : string;
  source : string
}.

(** A reading of the clock, [new Date()]: its time value and what
    [toISOString] gives for it. *)
Record Date := { epochMs : Z; toISOString : string }.

(** What [response.json()] can resolve to. The cell [cities] is declared
    [CityData[]], but [setCities(data)] stores whatever was parsed. *)
Inductive JsonData :=
| JsonCities (records : list CityData) (* an array of city objects *)
| JsonNull                             (* [null] *)
| JsonOther (text : string).           (* any other JSON document *)

(** How the request ends. *)
Inductive FetchOutcome :=
| Rejected
    (* [fetch] rejects: network error, server not reachable *)
| Responded (status : Z) (body : option JsonData).
    (* a response with this HTTP status arrived; [body] is [None] when
       it is not JSON, so that [response.json()] rejects *)

Inductive JsError :=
| FetchFailed       (* the rejection of [fetch] *)
| JsonSyntaxError   (* the rejection of [response.json()] *)
| NullLength.       (* TypeError: reading [length] of [null] *)

Inductive ConsoleEntry :=
| LogFetched (data : JsonData)  (* console.log('... Fetched ...', data.length, 'cities') *)
| ErrorFailed (e : JsError).    (* console.error('Failed to fetch cities data:', error) *)

(** The [useState] cells of the component, the console, and the
    requests to /api/cities: how many were issued so far and how many of
    them have not settled yet. *)
Record World := {
  cities : JsonData;
  loading : bool;
  lastUpdatedAt : Date;
  hoveredCity : option jsstring;
  console : list ConsoleEntry;
  requestsIssued : nat;
  requestsInFlight : nat
}.

(** *** Statements that may throw *)

Inductive Completion (A : Type) :=
| Returned (a : A)
| Thrown (e : JsError).
Arguments Returned {A} a.
Arguments Thrown {A} e.

Definition Eff (A : Type) : Type := World -> Completion A * World.

Definition ret {A} (a : A) : Eff A := fun w => (Returned a, w).
Definition throw {A} (e : JsError) : Eff A := fun w => (Thrown e, w).
Definition bind {A B} (m : Eff A) (k : A -> Eff B) : Eff B :=
  fun w =>
    match m w with
    | (Returned a, w') => k a w'
    | (Thrown e, w') => (Thrown e, w')
    end.

#[local] Instance Eff_ret : MRet Eff := @ret.
#[local] Instance Eff_bind : MBind Eff := fun A B k m => bind m k.

(** [try { body } catch (error) { handler }]. *)
Definition tryCatch {A} (body : Eff A) (handler : JsError -> Eff A) : Eff A :=
  fun w =>
    match body w with
    | (Returned a, w') => (Returned a, w')
    | (Thrown e, w') => handler e w'
    end.

(** [... finally { cleanup }]: the cleanup runs either way, and the
    completion of the protected part stands unless the cleanup throws. *)
Definition finally {A} (m : Eff A) (cleanup : Eff unit) : Eff A :=
  fun w =>
    match m w with
    | (r, w') =>
        match cleanup w' with
        | (Returned _, w'') => (r, w'')
        | (Thrown e, w'') => (Thrown e, w'')
        end
    end.

(** *** State setters and the console *)

Definition setCities (data : JsonData) : Eff unit := fun w =>
  (Returned tt,
   {| cities := data; loading := loading w;
      lastUpdatedAt := lastUpdatedAt w; hoveredCity := hoveredCity w;
      console := console w; requestsIssued := requestsIssued w;
      requestsInFlight := requestsInFlight w |}).

Definition setLoading (b : bool) : Eff unit := fun w =>
  (Returned tt,
   {| cities := cities w; loading := b;
      lastUpdatedAt := lastUpdatedAt w; hoveredCity := hoveredCity w;
      console := console w; requestsIssued := requestsIssued w;
      requestsInFlight := requestsInFlight w |}).

Definition setLastUpdated (d : Date) : Eff unit := fun w =>
  (Returned tt,
   {| cities := cities w; loading := loading w;
      lastUpdatedAt := d; hoveredCity := hoveredCity w;
      console := console w; requestsIssued := requestsIssued w;
      requestsInFlight := requestsInFlight w |}).

Definition setHoveredCity (h : option jsstring) : Eff unit := fun w =>
  (Returned tt,
   {| cities := cities w; loading := loading w;
      lastUpdatedAt := lastUpdatedAt w; hoveredCity := h;
      console := console w; requestsIssued := requestsIssued w;
      requestsInFlight := requestsInFlight w |}).

Definition consoleWrite (entry : ConsoleEntry) : Eff unit := fun w =>
  (Returned tt,
   {| cities := cities w; loading := loading w;
      lastUpdatedAt := lastUpdatedAt w; hoveredCity := hoveredCity w;
      console := console w ++ [entry]; requestsIssued := requestsIssued w;
      requestsInFlight := requestsInFlight w |}).

(** [console.log('... Fetched real-time data for', data.length, 'cities')]:
    evaluating [data.length] throws when [data] is [null]. *)
Definition consoleLogFetched (data : JsonData) : Eff unit :=
  match data with
  | JsonNull => throw NullLength
  | _ => consoleWrite (LogFetched data)
  end.

(** The call [fetch('http://localhost:5000/api/cities')]: one more
    request on the wire. *)
Definition issueRequest : Eff unit := fun w =>
  (Returned tt,
   {| cities := cities w; loading := loading w;
      lastUpdatedAt := lastUpdatedAt w; hoveredCity := hoveredCity w;
      console := console w; requestsIssued := S (requestsIssued w);
      requestsInFlight := S (requestsInFlight w) |}).

(** [await fetch(...)] followed by [await response.json()], once the
    request has settled with [o]. *)
Definition awaitJson (o : FetchOutcome) : Eff JsonData :=
  match o with
  | Rejected => throw FetchFailed
  | Responded _ None => throw JsonSyntaxError
  | Responded _ (Some data) => ret data
  end.

(** The built-in records of the [catch] block; [now] is the clock at
    that moment. *)
Definition fallbackCities (now : Date) : list CityData :=
  [ {| name := js "Delhi"; lat := 28.6139; lng := 77.2090; aqi := 168;
       quality := "Unhealthy"; pm25 := 101; pm10 := 134; o3 := 67;
       no2 := 50; so2 := 34; co := 17; temperature := 32; humidity := 65;
       lastUpdated := toISOString now; source := "Mock Data" |};
    {| name := js "Mumbai"; lat := 19.0760; lng := 72.8777; aqi := 95;
       quality := "Moderate"; pm25 := 57; pm10 := 76; o3 := 38;
       no2 := 29; so2 := 19; co := 10; temperature := 28; humidity := 78;
       lastUpdated := toISOString now; source := "Mock Data" |};
    {| name := js "Hyderabad"; lat := 17.3850; lng := 78.4867; aqi := 92;
       quality := "Moderate"; pm25 := 55; pm10 := 74; o3 := 37;
       no2 := 28; so2 := 18; co := 9; temperature := 30; humidity := 62;
       lastUpdated := toISOString now; source := "Mock Data" |};
    {| name := js "Chennai"; lat := 13.0827; lng := 80.2707; aqi := 78;
       quality := "Moderate"; pm25 := 47; pm10 := 62; o3 := 31;
       no2 := 23; so2 := 16; co := 8; temperature := 35; humidity := 68;
       lastUpdated := toISOString now; source := "Mock Data" |};
    {| name := js "Bengaluru"; lat := 12.9716; lng := 77.5946; aqi := 85;
       quality := "Moderate"; pm25 := 51; pm10 := 68; o3 := 34;
       no2 := 26; so2 := 17; co := 9; temperature := 26; humidity := 55;
       lastUpdated := toISOString now; source := "Mock Data" |} ]%Q.

(** *** fetchCitiesData *)

(** [fetchCitiesData] from its call up to the first [await]:
    [setLoading(true)], then the [try] block starts and calls [fetch]. *)
Definition fetchCitiesData_call : Eff unit :=
  setLoading true;;
  issueRequest.

(** [fetchCitiesData] from the [await] on, when the request has settled
    with [o]; [now] is the clock at that moment. *)
Definition fetchCitiesData_resume (now : Date) (o : FetchOutcome)
  : Eff unit :=
  finally
    (tryCatch
       (data ← awaitJson o;
        setCities data;;
        setLastUpdated now;;
        consoleLogFetched data)
       (fun error =>
          consoleWrite (ErrorFailed error);;
          setCities (JsonCities (fallbackCities now))))
    (setLoading false).

(** *** The mounted component *)

(** The initial [useState] values, then the effect's first call of
    [fetchCitiesData]. *)
Definition mount (now : Date) : World :=
  (fetchCitiesData_call
     {| cities := JsonCities []; loading := true; lastUpdatedAt := now;
        hoveredCity := None; console := []; requestsIssued := 0;
        requestsInFlight := 0 |}).2.

Inductive Event :=
| IntervalTick
    (* the [setInterval] callback, every five minutes *)
| RefreshClick
    (* a click on the Refresh button *)
| Settled (now : Date) (o : FetchOutcome)
    (* one of the requests in flight settles *)
| MarkerOver (city : jsstring)
| MarkerOut.

(** The Refresh button is part of the map view, which is rendered only
    when [loading] is false (the component returns the spinner
    otherwise), and it carries [disabled={loading}]: while [loading] is
    true there is no click. *)
Definition step (w : World) (e : Event) : World :=
  match e with
  | IntervalTick => (fetchCitiesData_call w).2
  | RefreshClick => if loading w then w else (fetchCitiesData_call w).2
  | Settled now o =>
      match requestsInFlight w with
      | O => w
      | S n =>
          (fetchCitiesData_resume now o
             {| cities := cities w; loading := loading w;
                lastUpdatedAt := lastUpdatedAt w;
                hoveredCity := hoveredCity w; console := console w;
                requestsIssued := requestsIssued w;
                requestsInFlight := n |}).2
      end
  | MarkerOver city => (setHoveredCity (Some city) w).2
  | MarkerOut => (setHoveredCity None w).2
  end.

Definition run (w : World) (es : list Event) : World :=
  fold_left step es w.

(** The worlds the mounted component can be in. *)
Definition reachable (now : Date) (w : World) : Prop :=
  exists es, w = run (mount now) es.

(** While the spinner is up, a request is in flight. *)
Definition loadingMeansInFlight (w : World) : Prop :=
  loading w = true -> (0 < requestsInFlight w)%nat.

(** *** Failure of a refresh *)

(** On which outcomes the [try] block throws, so that the [catch] block
    runs. *)
Definition tryThrows (o : FetchOutcome) : bool :=
  match o with
  | Rejected => true
  | Responded _ None => true
  | Responded _ (Some JsonNull) => true
  | Responded _ (Some _) => false
  end.

(** Failure in the words of the specification: a network error, a
    malformed payload, or a status outside 200..299. *)
Definition specFailure (o : FetchOutcome) : bool :=
  match o with
  | Rejected => true
  | Responded _ None => true
  | Responded status (Some (JsonCities _)) =>
      negb ((200 <=? status)%Z && (status <=? 299)%Z)
  | Responded _ (Some _) => true
  end.

End LeafletMap.

(* ================================================================== *)
(** ** What the search filter tests, and the words of the specification *)
(* ================================================================== *)

Module SearchSpec.
Import JsString.

Section WithCaseMapping.

Variable toLowerCase : jsstring -> jsstring.

(** The lower-cased [name] contains the lower-cased [q] as a substring:
    the test that [filteredCities] makes. *)
Definition loweredContains (q name : jsstring) : Prop :=
  exists before after,
    toLowerCase name = before ++ toLowerCase q ++ after.

(** [name] contains [q] as a case-insensitive substring: some stretch of
    [name] equals [q] up to the case of its letters. *)
Definition containsIgnoringCase (q name : jsstring) : Prop :=
  exists before m after,
    name = before ++ m ++ after /\ toLowerCase m = toLowerCase q.

End WithCaseMapping.

End SearchSpec.

(* ================================================================== *)
(** ** Sample data *)
(* ================================================================== *)

(** Concrete values at which the statements below are evaluated: the two
    cities of the specification's end-to-end scenario, a stand-in for
    the mock-data lookup that returns the city name as the detail data,
    and a stand-in for [String.prototype.toLowerCase].

    The stand-in for [toLowerCase] is the Unicode lower-casing on the
    characters it covers and agrees with the engine's function on every
    string made of Basic Latin letters, digits, spaces and the Greek
    letters U+0391..U+03A9, U+03B1..U+03C9: capital letters move 32 code
    points up, except that a capital sigma (U+03A3) directly after a
    letter and not directly before one becomes the final sigma (U+03C2).
    It is used at such strings only. *)
Module Sample.
Import JsString.

Definition delhi : Dashboard.City :=
  {| Dashboard.name := js "Delhi"; Dashboard.aqi := 168;
     Dashboard.quality := "Unhealthy" |}.

Definition mumbai : Dashboard.City :=
  {| Dashboard.name := js "Mumbai"; Dashboard.aqi := 95;
     Dashboard.quality := "Moderate" |}.

Definition topCities : list Dashboard.City := [delhi; mumbai].

Definition user : Dashboard.User :=
  {| Dashboard.user_name := "Asha"; Dashboard.user_city := js "Delhi" |}.

Definition getAQIData (city : jsstring) : jsstring := city.

(** The stand-in for [toLowerCase]: the capital letters A..Z and
    U+0391..U+03A9 (U+03A2 is not assigned), the letters with case, and
    the lower-casing of one letter out of context. *)
Definition isCapital (u : codeUnit) : bool :=
  ((65 <=? u) && (u <=? 90)
   || (913 <=? u) && (u <=? 937) && negb (u =? 930))%N.

Definition isCased (u : codeUnit) : bool :=
  (isCapital u
   || (97 <=? u) && (u <=? 122)
   || (945 <=? u) && (u <=? 969))%N.

Definition lowerUnit (u : codeUnit) : codeUnit :=
  if isCapital u then (u + 32)%N else u.

Definition beforeLetter (s : jsstring) : bool :=
  match s with
  | v :: _ => isCased v
  | [] => false
  end.

(** Lower-casing from left to right; [afterLetter] tells whether the
    previous character is a letter with case. *)
Fixpoint lowerFrom (afterLetter : bool) (s : jsstring) : jsstring :=
  match s with
  | [] => []
  | u :: s' =>
      (if (u =? 931)%N && afterLetter && negb (beforeLetter s')
       then 962%N
       else lowerUnit u)
      :: lowerFrom (isCased u) s'
  end.

Definition toLowerCase (s : jsstring) : jsstring := lowerFrom false s.

(** A street name in Greek capitals, U+039F U+0394 U+039F U+03A3, and the
    query made of the capital sigma alone. *)
Definition odos : Dashboard.City :=
  {| Dashboard.name := [927; 916; 927; 931]%N; Dashboard.aqi := 40;
     Dashboard.quality := "Good" |}.

Definition sigma : jsstring := [931%N].

(** The dashboard at its start, after a request for the analytics view,
    and after typing "de" and picking Delhi. *)
Definition atStart : Dashboard.State jsstring :=
  Dashboard.init getAQIData user.

Definition toAnalytics : Dashboard.State jsstring :=
  Dashboard.run getAQIData atStart [Dashboard.ViewChange "analytics"].

Definition afterSearch : Dashboard.State jsstring :=
  Dashboard.run getAQIData atStart
    [Dashboard.SearchChange (js "de"); Dashboard.CityChange (js "Delhi")].

Definition clock : LeafletMap.Date :=
  {| LeafletMap.epochMs := 0;
     LeafletMap.toISOString := "1970-01-01T00:00:00.000Z" |}.

(** The map just mounted, its first request in flight; and after a poll
    has fired and one of the two requests has been answered. *)
Definition mounted : LeafletMap.World := LeafletMap.mount clock.

Definition oneOfTwoSettled : LeafletMap.World :=
  LeafletMap.run mounted
    [LeafletMap.IntervalTick;
     LeafletMap.Settled clock
       (LeafletMap.Responded 200 (Some (LeafletMap.JsonCities [])))].

End Sample.

(* ================================================================== *)
(** ** What the Dashboard renders *)
(* ================================================================== *)

Module DashboardRender.
Import JsString Dashboard.

(** [getAQIColorDot]: the class of the dot in front of a search result. *)
Definition getAQIColorDot (aqi : Z) : string :=
  if (aqi <=? 50)%Z then "bg-green-500"
  else if (aqi <=? 100)%Z then "bg-yellow-500"
  else if (aqi <=? 150)%Z then "bg-orange-500"
  else if (aqi <=? 200)%Z then "bg-red-500"
  else "bg-purple-500".

(** The component [renderContent] returns, with the props it is given;
    the last one stands for the four panels of the default case
    (LeafletMap, AQIDetails, EnhancedForecastGraph, InteractiveGraph). *)
Inductive Content (AQIData : Type) :=
| AIPredictor (data : AQIData)
| Analytics (data : AQIData)
| WeatherDashboard (city : jsstring)
| AQICalculator
| AboutPage
| DashboardPanels (selectedCity : jsstring) (data : AQIData).
Arguments AIPredictor {AQIData} data.
Arguments Analytics {AQIData} data.
Arguments WeatherDashboard {AQIData} city.
Arguments AQICalculator {AQIData}.
Arguments AboutPage {AQIData}.
Arguments DashboardPanels {AQIData} selectedCity data.

(** [renderContent]: the [switch] on [activeView] with its [default]. *)
Definition renderContent {AQIData} (st : State AQIData) : Content AQIData :=
  if String.eqb (activeView st) "ai-predictor" then AIPredictor (aqiData st)
  else if String.eqb (activeView st) "analytics" then Analytics (aqiData st)
  else if String.eqb (activeView st) "weather"
  then WeatherDashboard (selectedCity st)
  else if String.eqb (activeView st) "calculator" then AQICalculator
  else if String.eqb (activeView st) "about" then AboutPage
  else DashboardPanels (selectedCity st) (aqiData st).

(** The text of the [h1]: six [activeView === ... && '...'] expressions in
    a row, a false one rendering nothing. *)
Definition headerTitle {AQIData} (st : State AQIData) : string :=
  String.append
    (if String.eqb (activeView st) "dashboard" then "Dashboard" else "")
  (String.append
    (if String.eqb (activeView st) "ai-predictor"
     then "AI Health Assistant" else "")
  (String.append
    (if String.eqb (activeView st) "analytics"
     then "Analytics & Trends" else "")
  (String.append
    (if String.eqb (activeView st) "weather" then "Weather Dashboard" else "")
  (String.append
    (if String.eqb (activeView st) "calculator" then "AQI Calculator" else "")
    (if String.eqb (activeView st) "about" then "About" else ""))))).

End DashboardRender.

(* ================================================================== *)
(** ** What the LeafletMap renders *)
(* ================================================================== *)

Module MapRender.
Import JsString LeafletMap.

(** [getAQIColor]: the colour of a marker. *)
Definition getAQIColor (aqi : number) : string :=
  if Qle_bool aqi 50 then "#22C55E"
  else if Qle_bool aqi 100 then "#EAB308"
  else if Qle_bool aqi 150 then "#F97316"
  else if Qle_bool aqi 200 then "#EF4444"
  else "#8B5CF6".

(** The [L.divIcon] of [createCustomIcon], by the values put into its
    template: the background colour, the size in px, the font size in px,
    whether the pulse animation and the scale transform are there, the
    number shown, and the anchor. *)
Record DivIcon := {
  background : string;
  size : Z;
  fontSize : Z;
  pulse : bool;
  scaled : bool;
  text : number;
  iconAnchor : number * number
}.

Definition createCustomIcon (aqi : number) (isSelected isHovered : bool)
  : DivIcon :=
  let color := getAQIColor aqi in
  let size := (if isSelected then 45 else if isHovered then 35 else 30)%Z in
  {| background := color;
     size := size;
     fontSize := (if isSelected then 14 else if isHovered then 12 else 10)%Z;
     pulse := isSelected;
     scaled := isHovered;
     text := aqi;
     iconAnchor := (inject_Z size / 2, inject_Z size / 2)%Q |}.

(** A [Marker] of the map: its key, position and icon, the name its click
    handler passes to [onCitySelect], and the name its mouseover handler
    passes to [setHoveredCity]. *)
Record Marker := {
  key : jsstring;
  position : number * number;
  icon : DivIcon;
  onClick : jsstring;
  onMouseOver : jsstring
}.

(** [hoveredCity === city.name], [hoveredCity] being a name or [null]. *)
Definition isHoveredCity (hoveredCity : option jsstring)
    (cityName : jsstring) : bool :=
  match hoveredCity with
  | Some h => JsString.eqb h cityName
  | None => false
  end.

(** [cities.map((city) => <Marker ... />)], for a dataset that is an array
    of city objects. *)
Definition markers (cities : list CityData) (selectedCity : jsstring)
    (hoveredCity : option jsstring) : list Marker :=
  map (fun city =>
         {| key := name city;
            position := (lat city, lng city);
            icon := createCustomIcon (aqi city)
                      (JsString.eqb selectedCity (name city))
                      (isHoveredCity hoveredCity (name city));
            onClick := name city;
            onMouseOver := name city |})
      cities.

(** The effect of [MapUpdater]: the call [map.setView([lat, lng], 8, ...)]
    it makes, if any. *)
Definition MapUpdater (cities : list CityData) (selectedCity : jsstring)
  : option (number * number * Z) :=
  match List.find (fun city => JsString.eqb (name city) selectedCity) cities with
  | Some selectedCityData =>
      Some (lat selectedCityData, lng selectedCityData, 8%Z)
  | None => None
  end.

End MapRender.

(* ================================================================== *)
(** ** The App component *)
(* ================================================================== *)

Module App.
Import LeafletMap.

Inductive CurrentView := form | loading | dashboard.

(** [interface AQIResult]. *)
Record AQIResult := {
  name : string;
  city : string;
  aqi : number;
  quality : string;
  advice : string;
  timestamp : string
}.

(** What the cell [result] can hold: [null], or whatever
    [res.json()] resolved to. *)
Inductive ResultData :=
| ResultNull
| ResultObject (r : AQIResult)
| ResultOther (text : string).

(** How the POST to /api/predict-aqi ends; [body] is [None] when it is
    not JSON. *)
Inductive PredictOutcome :=
| PredictRejected
| PredictResponded (status : Z) (body : option ResultData).

(** The three [useState] cells, and the number of POST requests that have
    not settled yet. *)
Record State := {
  currentView : CurrentView;
  user : option Dashboard.User;
  result : ResultData;
  predictInFlight : nat
}.

Definition init : State :=
  {| currentView := form; user := None; result := ResultNull;
     predictInFlight := 0 |}.

(** [handleFormSubmit] from its call up to the [await] inside
    [handleSubmit]: [setUser], [setCurrentView('loading')], and the call
    of [fetch]. *)
Definition handleFormSubmit_call (userData : Dashboard.User) (st : State)
  : State :=
  {| currentView := loading; user := Some userData; result := result st;
     predictInFlight := S (predictInFlight st) |}.

(** [handleSubmit] from the [await] on, and with it the rest of
    [handleFormSubmit]: there is no [try], so a rejection of [fetch] or of
    [res.json()] is the completion of both. *)
Definition handleSubmit_resume (o : PredictOutcome) (st : State)
  : Completion unit * State :=
  match o with
  | PredictRejected => (Thrown FetchFailed, st)
  | PredictResponded _ None => (Thrown JsonSyntaxError, st)
  | PredictResponded _ (Some data) =>
      (Returned tt,
       {| currentView := currentView st; user := user st; result := data;
          predictInFlight := predictInFlight st |})
  end.

Definition handleLoadingComplete (st : State) : State :=
  {| currentView := dashboard; user := user st; result := result st;
     predictInFlight := predictInFlight st |}.

(** What [App] returns. The block with [result && ...] before the final
    [return null] is an expression statement: its value is dropped. *)
Inductive Screen :=
| InitialForm
| LoadingScreen (user : Dashboard.User)
| DashboardScreen (user : Dashboard.User)
| Nothing.

Definition render (st : State) : Screen :=
  match currentView st, user st with
  | form, _ => InitialForm
  | loading, Some u => LoadingScreen u
  | dashboard, Some u => DashboardScreen u
  | _, _ => Nothing
  end.

(** [handleFormSubmit] is the [onSubmit] prop of InitialForm and runs
    whenever it is called. [handleLoadingComplete] is the [onComplete]
    prop of LoadingScreen, which is rendered only once a user is set: a
    completion can come only from then on. *)
Inductive Event :=
| Submit (userData : Dashboard.User)
| LoadingDone
| PredictSettled (o : PredictOutcome).


Definition step (st : State) (e : Event) : State :=
  match e with
  | Submit userData => handleFormSubmit_call userData st
  | LoadingDone =>
      match user st with
      | Some _ => handleLoadingComplete st
      | None => st
      end
  | PredictSettled o =>
      match predictInFlight st with
      | O => st
      | S n =>
          (handleSubmit_resume o
             {| currentView := currentView st; user := user st;
                result := result st; predictInFlight := n |}).2
      end
  end.

Definition run (st : State) (es : list Event) : State :=
  fold_left step es st.

Definition reachable (st : State) : Prop := exists es, st = run init es.

End App.

(* ================================================================== *)
(** ** Reading a run of Dashboard events *)
(* ================================================================== *)

Module DashboardTrace.
Import JsString Dashboard.

(** The name given by the last [CityChange] of [es], and [start] when
    there is none. *)
Fixpoint lastCityChange (start : jsstring) (es : list Event) : jsstring :=
  match es with
  | [] => start
  | CityChange city :: es' => lastCityChange city es'
  | _ :: es' => lastCityChange start es'
  end.

End DashboardTrace.

(* ================================================================== *)
(** ** More sample data *)
(* ================================================================== *)

Module Scenario.
Import JsString.

(** The dashboard with "de" typed into the search box. *)
Definition typedDe : Dashboard.State jsstring :=
  Dashboard.run Sample.getAQIData Sample.atStart
    [Dashboard.SearchChange (js "de")].

(** The dashboard after the sidebar asked for a view named "settings" and
    the loading screen completed. *)
Definition onSettings : Dashboard.State jsstring :=
  Dashboard.run Sample.getAQIData Sample.atStart
    [Dashboard.ViewChange "settings"; Dashboard.LoadingComplete].

(** The dataset of the map after a request that failed. *)
Definition fallback : list LeafletMap.CityData :=
  LeafletMap.fallbackCities Sample.clock.

Definition hyderabad : LeafletMap.CityData :=
  {| LeafletMap.name := js "Hyderabad"; LeafletMap.lat := 17.3850%Q;
     LeafletMap.lng := 78.4867%Q; LeafletMap.aqi := 92%Q;
     LeafletMap.quality := "Moderate"; LeafletMap.pm25 := 55%Q;
     LeafletMap.pm10 := 74%Q; LeafletMap.o3 := 37%Q; LeafletMap.no2 := 28%Q;
     LeafletMap.so2 := 18%Q; LeafletMap.co := 9%Q;
     LeafletMap.temperature := 30%Q; LeafletMap.humidity := 62%Q;
     LeafletMap.lastUpdated := "1970-01-01T00:00:00.000Z";
     LeafletMap.source := "Mock Data" |}.

(** The app once the form was submitted, and once the loading screen has
    completed. *)
Definition submitted : App.State :=
  App.run App.init [App.Submit Sample.user].

Definition onDashboard : App.State :=
  App.run App.init [App.Submit Sample.user; App.LoadingDone].

Definition ravi : Dashboard.User :=
  {| Dashboard.user_name := "Ravi"; Dashboard.user_city := js "Mumbai" |}.

End Scenario.

(* ================================================================== *)
(** ** Properties of the string operations *)
(* ================================================================== *)

Section JsStringFacts.
Import JsString.

Lemma eqb_spec (a b : jsstring) : reflect (a = b) (eqb a b).
Proof.
  revert b; induction a as [|x a IH]; intros [|y b]; simpl;
    try (constructor; congruence).
  destruct (N.eqb_spec x y) as [->|Hne]; simpl.
  - destruct (IH b) as [->|Hne]; constructor; congruence.
  - constructor; congruence.
Qed.

Lemma eqb_refl (a : jsstring) : eqb a a = true.
Proof. now destruct (eqb_spec a a). Qed.

Lemma startsWith_spec (s q : jsstring) :
  startsWith s q = true <-> exists rest, s = q ++ rest.
Proof.
  revert s; induction q as [|c q IH]; intros s; simpl.
  - split; [exists s; reflexivity | destruct s; reflexivity].
  - destruct s as [|d s]; simpl.
    + split; [discriminate | intros [r H]; discriminate].
    + rewrite andb_true_iff, N.eqb_eq, IH; split.
      * intros [-> [r ->]]; now exists r.
      * intros [r H]; injection H as -> ->; split; [reflexivity | now exists r].
Qed.

Lemma includes_spec (s q : jsstring) :
  includes s q = true <-> exists before after, s = before ++ q ++ after.
Proof.
  induction s as [|c s IH]; cbn [includes]; rewrite orb_true_iff, startsWith_spec.
  - split.
    + intros [[r H] | H]; [|discriminate]. now exists [], r.
    + intros ([|d b] & a & H); simpl in H; [left; now exists a | discriminate].
  - rewrite IH; split.
    + intros [[r H] | (b & a & ->)].
      * now exists [], r.
      * now exists (c :: b), a.
    + intros ([|d b] & a & H); simpl in H.
      * left; now exists a.
      * injection H as -> ->; right; now exists b, a.
Qed.

(** Every string includes the empty string, and itself. *)
Lemma includes_empty (s : jsstring) : includes s [] = true.
Proof. destruct s; reflexivity. Qed.

Lemma includes_refl (s : jsstring) : includes s s = true.
Proof. apply includes_spec; exists [], []; now rewrite List.app_nil_r. Qed.

End JsStringFacts.

(* ================================================================== *)
(** ** Properties of the sample case mapping *)
(* ================================================================== *)

Section SampleCaseFacts.
Import JsString Sample.






End SampleCaseFacts.

(* ================================================================== *)
(** ** Properties of the search filter *)
(* ================================================================== *)

Section FilterFacts.
Import JsString Dashboard SearchSpec.

Variable toLowerCase : jsstring -> jsstring.

Abbreviation filteredCities := (Dashboard.filteredCities toLowerCase).

Lemma filteredCities_empty_query (D : list City) :
  toLowerCase [] = [] -> filteredCities D [] = D.
Proof.
  intros He; unfold Dashboard.filteredCities; rewrite He.
  induction D as [|c D IH]; simpl.
  - reflexivity.
  - rewrite includes_empty; now f_equal.
Qed.

Lemma filteredCities_In (D : list City) (q : jsstring) (c : City) :
  In c (filteredCities D q)
  <-> In c D /\ loweredContains toLowerCase q (name c).
Proof.
  unfold Dashboard.filteredCities, loweredContains.
  rewrite filter_In, includes_spec; tauto.
Qed.

Lemma filteredCities_sublist (D : list City) (q : jsstring) :
  sublist (filteredCities D q) D.
Proof.
  unfold Dashboard.filteredCities; induction D as [|c D IH]; simpl.
  - constructor.
  - destruct (includes _ _); now constructor.
Qed.

(** Every sublist of [D] made of matching records is a sublist of the
    filtered list: nothing that matches is dropped, and no matching
    record is moved. *)
Lemma filteredCities_greatest (D l : list City) (q : jsstring) :
  sublist l D ->
  List.Forall (fun c => loweredContains toLowerCase q (name c)) l ->
  sublist l (filteredCities D q).
Proof.
  unfold Dashboard.filteredCities, loweredContains;
    induction 1 as [|c l D Hs IH|c l D Hs IH]; intros Hall; simpl.
  - constructor.
  - inversion Hall as [|? ? Hc Hl]; subst.
    apply includes_spec in Hc; rewrite Hc.
    constructor; auto.
  - destruct (includes _ _); [constructor|]; auto.
Qed.

(** X1: filtering the result again with the same query changes nothing. *)
Lemma filteredCities_idempotent (D : list City) (q : jsstring) :
  filteredCities (filteredCities D q) q = filteredCities D q.
Proof.
  unfold Dashboard.filteredCities; induction D as [|c D IH]; simpl;
    [reflexivity|].
  destruct (includes _ _) eqn:Hc; simpl; [rewrite Hc; f_equal|]; exact IH.
Qed.

(** C6, amended: for a non-empty query [q] the filtered list is made of
    exactly the records of [D] whose lower-cased name contains the
    lower-cased [q] as a substring, in the order they have in [D]: it is
    a sublist of [D], a record is in it iff it is in [D] and passes that
    test, and every sublist of [D] made of records that pass it is a
    sublist of it. *)
Theorem filteredCities_lowered_exact_in_order (D : list City) (q : jsstring) :
  q <> [] ->
  sublist (filteredCities D q) D
  /\ (forall c, In c (filteredCities D q)
                <-> In c D /\ loweredContains toLowerCase q (name c))
  /\ (forall l, sublist l D ->
                List.Forall
                  (fun c => loweredContains toLowerCase q (name c)) l ->
                sublist l (filteredCities D q)).
Proof.
  intros _; split; [|split].
  - apply filteredCities_sublist.
  - intros c; apply filteredCities_In.
  - intros l; apply filteredCities_greatest.
Qed.

End FilterFacts.

(** C1, as stated, fails: with the empty query the filter keeps every
    record. *)
Lemma filteredCities_empty_query_not_nil :
  Dashboard.filteredCities Sample.toLowerCase Sample.topCities []
  = [Sample.delhi; Sample.mumbai]
  /\ Dashboard.filteredCities Sample.toLowerCase Sample.topCities [] <> [].
Proof. split; [reflexivity | discriminate]. Qed.

(** C6, as stated, fails. The name U+039F U+0394 U+039F U+03A3 contains
    the query U+03A3 as it is, so also up to case; but its lower-casing
    ends in the final sigma U+03C2 while the query is lower-cased to the
    medial sigma U+03C3, and the filter drops the city. *)
Lemma filteredCities_misses_capital_sigma :
  Sample.sigma <> []
  /\ In Sample.odos [Sample.odos; Sample.delhi]
  /\ SearchSpec.containsIgnoringCase Sample.toLowerCase Sample.sigma
       (Dashboard.name Sample.odos)
  /\ Sample.toLowerCase (Dashboard.name Sample.odos)
     = [959; 948; 959; 962]%N
  /\ Sample.toLowerCase Sample.sigma = [963%N]
  /\ Dashboard.filteredCities Sample.toLowerCase [Sample.odos; Sample.delhi]
       Sample.sigma = [].
Proof.
  split; [discriminate|]; split; [now left|]; split; [|repeat split].
  exists [927; 916; 927]%N, [931%N], []; split; reflexivity.
Qed.

(** The scenario of the specification: the query "de" on Delhi and
    Mumbai. *)
Lemma filteredCities_lowered_exact_in_order_witness :
  JsString.js "de" <> []
  /\ Dashboard.filteredCities Sample.toLowerCase Sample.topCities
       (JsString.js "de") = [Sample.delhi]
  /\ sublist (Dashboard.filteredCities Sample.toLowerCase Sample.topCities
                (JsString.js "de"))
             Sample.topCities.
Proof.
  split; [discriminate | split; [reflexivity|]].
  apply (filteredCities_lowered_exact_in_order Sample.toLowerCase
           Sample.topCities (JsString.js "de")); discriminate.
Defined.

(* ================================================================== *)
(** ** Properties of the Dashboard state *)
(* ================================================================== *)

Section DashboardFacts.
Import JsString Dashboard.

Context {AQIData : Type}.
Variable getAQIData : jsstring -> AQIData.
Variable toLowerCase : jsstring -> jsstring.

Abbreviation State := (Dashboard.State AQIData).
Abbreviation step := (Dashboard.step getAQIData).
Abbreviation run := (Dashboard.run getAQIData).
Abbreviation init := (Dashboard.init getAQIData).
Abbreviation reachable := (Dashboard.reachable getAQIData).

(** What holds at the start and is kept by every event holds in every
    reachable state. *)
Lemma run_invariant (P : State -> Prop) :
  (forall st e, P st -> P (step st e)) ->
  forall es st, P st -> P (run st es).
Proof.
  intros Hstep es; induction es as [|e es IH]; intros st Hst; simpl.
  - exact Hst.
  - apply IH, Hstep, Hst.
Qed.

Lemma reachable_invariant (P : State -> Prop) (user : User) :
  P (init user) ->
  (forall st e, P st -> P (step st e)) ->
  forall st, reachable user st -> P st.
Proof.
  intros H0 Hstep st [es ->]; now apply run_invariant.
Qed.

Lemma length_pos_nonempty (s : jsstring) :
  (0 <? length s)%nat = true -> s <> [].
Proof. destruct s; [discriminate | intros _; discriminate]. Qed.

Lemma searchShownOnlyForQuery_reachable (user : User) (st : State) :
  reachable user st -> searchShownOnlyForQuery st.
Proof.
  apply reachable_invariant; unfold searchShownOnlyForQuery.
  - simpl; discriminate.
  - intros s [city|view| |value| ] IH; simpl; try assumption.
    + discriminate.
    + unfold handleViewChange; destruct (negb _); simpl; assumption.
    + apply length_pos_nonempty.
    + apply length_pos_nonempty.
Qed.

Lemma idleTargetIsActive_reachable (user : User) (st : State) :
  reachable user st -> idleTargetIsActive st.
Proof.
  apply reachable_invariant; unfold idleTargetIsActive.
  - reflexivity.
  - intros s [city|view| |value| ] IH; simpl; try assumption.
    + unfold handleViewChange; destruct (negb _); simpl;
        [discriminate | assumption].
    + reflexivity.
Qed.

(** *** Selection *)

(** C4: for every string [x], whether or not a city of that name exists in
    any dataset, after [handleCityChange x] the selected city is [x]. *)
Theorem handleCityChange_selects (x : jsstring) (st : State) :
  selectedCity (handleCityChange getAQIData x st) = x.
Proof. reflexivity. Qed.

(** A name that no dataset of the sample holds is selected all the same. *)
Example handleCityChange_selects_unknown_name :
  ~ In (js "Atlantis") (map name Sample.topCities)
  /\ selectedCity
       (handleCityChange Sample.getAQIData (js "Atlantis") Sample.atStart)
     = js "Atlantis".
Proof.
  split; [|reflexivity].
  simpl; intros [H|[H|[]]]; discriminate H.
Qed.

(** C5: after [handleCityChange] the search query is the empty string and
    the results flag is false, whatever they were before. *)
Theorem handleCityChange_clears_search (city : jsstring) (st : State) :
  searchQuery (handleCityChange getAQIData city st) = []
  /\ showSearchResults (handleCityChange getAQIData city st) = false.
Proof. split; reflexivity. Qed.

Lemma aqiDataOfSelected_step (st : State) (e : Event) :
  aqiDataOfSelected getAQIData st ->
  aqiDataOfSelected getAQIData (step st e).
Proof.
  unfold aqiDataOfSelected; destruct e as [city|view| |value| ]; simpl;
    try (intros H; exact H).
  - reflexivity.
  - unfold handleViewChange; destruct (negb _); simpl; auto.
Qed.

(** C10: [aqiData = getAQIData selectedCity] holds in the initial state,
    holds after every [handleCityChange], and so holds in every state the
    component reaches: the detail data comes from the mock-data lookup
    [getAQIData] alone. *)
Theorem aqiData_is_getAQIData_of_selected :
  (forall user, aqiDataOfSelected getAQIData (init user))
  /\ (forall city st,
        aqiDataOfSelected getAQIData (handleCityChange getAQIData city st))
  /\ (forall user es, aqiDataOfSelected getAQIData (run (init user) es)).
Proof.
  split; [|split].
  - reflexivity.
  - reflexivity.
  - intros user es; apply run_invariant.
    + apply aqiDataOfSelected_step.
    + reflexivity.
Qed.

(** *** The search dropdown *)

(** C1, amended: with the empty query [filteredCities] is the whole
    dataset, and the dropdown shows none of it, because in every reachable
    state the results flag is down while the query is empty. (The empty
    string is its own lower-casing.) *)
Theorem empty_query_shows_nothing (user : User) (D : list City) (st : State) :
  toLowerCase [] = [] ->
  reachable user st ->
  searchQuery st = [] ->
  filteredCities toLowerCase D (searchQuery st) = D
  /\ searchDropdown toLowerCase D st = [].
Proof.
  intros He Hr Hq; split.
  - rewrite Hq; now apply filteredCities_empty_query.
  - pose proof (searchShownOnlyForQuery_reachable user st Hr) as Hinv.
    unfold searchDropdown, searchShownOnlyForQuery in *.
    destruct (showSearchResults st).
    + now destruct Hinv.
    + simpl. destruct (isLoading st); [reflexivity|].
      now destruct (_ && _).
Qed.

(** *** View transitions *)

(** C7: in [Idle a], a request for [a] changes nothing, and a request for
    another view [target] leads to [Transitioning a target]. *)
Theorem handleViewChange_from_idle (st : State) (a target : string) :
  viewState st = Idle a ->
  (target = a -> handleViewChange target st = st)
  /\ (target <> a ->
      viewState (handleViewChange target st) = Transitioning a target).
Proof.
  unfold viewState, handleViewChange.
  destruct (isLoading st); [discriminate|].
  intros [= <-]; split; intros H.
  - subst; now rewrite String.eqb_refl.
  - apply String.eqb_neq in H; now rewrite H.
Qed.

(** C8: in [Transitioning a t] the completion leads to [Idle t]; in a
    reachable [Idle] state it changes no state cell. *)
Theorem handleLoadingComplete_transition
    (user : User) (st : State) (a t : string) :
  reachable user st ->
  (viewState st = Transitioning a t ->
   viewState (handleLoadingComplete st) = Idle t)
  /\ (viewState st = Idle a -> handleLoadingComplete st = st).
Proof.
  intros Hr.
  pose proof (idleTargetIsActive_reachable user st Hr) as Hinv.
  unfold viewState, idleTargetIsActive, handleLoadingComplete in *.
  destruct (isLoading st) eqn:Hl; split; try discriminate.
  - now intros [= _ ->].
  - intros _. specialize (Hinv eq_refl).
    destruct st as [av sc ad sq ss il tv]; simpl in *; now subst.
Qed.

(** C9: in [Transitioning a t0], a request for a view [t] other than [a]
    replaces the pending target by [t]; a request for [a] changes nothing
    and [t0] stays pending. *)
Theorem handleViewChange_while_transitioning (st : State) (a t0 t : string) :
  viewState st = Transitioning a t0 ->
  (t <> a -> viewState (handleViewChange t st) = Transitioning a t)
  /\ (t = a -> handleViewChange t st = st
              /\ viewState (handleViewChange t st) = Transitioning a t0).
Proof.
  unfold viewState, handleViewChange.
  destruct (isLoading st) eqn:Hl; [|discriminate].
  intros [= <- <-]; split; intros H.
  - apply String.eqb_neq in H; now rewrite H.
  - subst; rewrite String.eqb_refl; simpl; now rewrite Hl.
Qed.

End DashboardFacts.

(* ================================================================== *)
(** ** Properties of the LeafletMap refresh *)
(* ================================================================== *)

Section LeafletMapFacts.
Import LeafletMap.

(** Whatever the outcome of the request, the resumed [fetchCitiesData]
    completes normally and leaves [loading] false. *)
Lemma fetchCitiesData_resume_returns
    (now : Date) (o : FetchOutcome) (w : World) :
  (fetchCitiesData_resume now o w).1 = Returned tt
  /\ loading (fetchCitiesData_resume now o w).2 = false.
Proof.
  destruct o as [|status [[records| |text]|]]; split; reflexivity.
Qed.

(** When the [try] block does not throw, the parsed payload is stored as
    it is, whatever the status. *)
Lemma fetchCitiesData_resume_stores_payload
    (now : Date) (status : Z) (data : JsonData) (w : World) :
  data <> JsonNull ->
  cities (fetchCitiesData_resume now (Responded status (Some data)) w).2
  = data.
Proof. destruct data; [reflexivity | congruence | reflexivity]. Qed.

Lemma fallbackCities_source (now : Date) :
  Forall (fun c => source c = "Mock Data") (fallbackCities now).
Proof. repeat constructor. Qed.

(** C2, as stated, fails twice. After a network error the records of the
    fallback set carry the source "Mock Data", not "fallback"; and a
    response with status 500 whose body is the JSON array [[]], a failure
    in the words of the specification, is stored as the dataset: no
    fallback, and an empty dataset. *)
Lemma refresh_failure_counterexample :
  (specFailure Rejected = true
   /\ cities (step Sample.mounted (Settled Sample.clock Rejected))
      = JsonCities (fallbackCities Sample.clock)
   /\ ~ Forall (fun c => source c = "fallback")
              (fallbackCities Sample.clock))
  /\ (specFailure (Responded 500 (Some (JsonCities []))) = true
      /\ cities (step Sample.mounted
                   (Settled Sample.clock
                      (Responded 500 (Some (JsonCities [])))))
         = JsonCities []).
Proof.
  repeat split.
  intros H; inversion H as [|? ? Hsrc _]; discriminate Hsrc.
Qed.

(** C2, amended: whenever the [try] block throws ([fetch] rejects, the
    body is not JSON, or it is the JSON [null]), [fetchCitiesData]
    completes normally and has replaced the dataset by the five built-in
    records, each with source "Mock Data". *)
Theorem fetchCitiesData_falls_back_on_throw
    (now : Date) (o : FetchOutcome) (w : World) :
  tryThrows o = true ->
  (fetchCitiesData_resume now o w).1 = Returned tt
  /\ cities (fetchCitiesData_resume now o w).2
     = JsonCities (fallbackCities now)
  /\ length (fallbackCities now) = 5%nat
  /\ Forall (fun c => source c = "Mock Data") (fallbackCities now).
Proof.
  intros Ht; split; [apply fetchCitiesData_resume_returns|].
  split; [|split; [reflexivity | apply fallbackCities_source]].
  destruct o as [|status [[records| |text]|]]; try discriminate Ht;
    reflexivity.
Qed.

Lemma loadingMeansInFlight_step (w : World) (e : Event) :
  loadingMeansInFlight w -> loadingMeansInFlight (step w e).
Proof.
  unfold loadingMeansInFlight; intros IH.
  destruct e as [| |now o|city|]; simpl.
  - intros _; lia.
  - destruct (loading w) eqn:Hl; simpl; [rewrite Hl; exact IH | intros _; lia].
  - destruct (requestsInFlight w) as [|n] eqn:Hn; [now rewrite Hn|].
    intros Hl; exfalso.
    pose proof (fetchCitiesData_resume_returns now o
      {| cities := cities w; loading := loading w;
         lastUpdatedAt := lastUpdatedAt w; hoveredCity := hoveredCity w;
         console := console w; requestsIssued := requestsIssued w;
         requestsInFlight := n |}) as [_ Hf].
    congruence.
  - exact IH.
  - exact IH.
Qed.

Lemma loadingMeansInFlight_reachable (now : Date) (w : World) :
  reachable now w -> loadingMeansInFlight w.
Proof.
  intros [es ->]; unfold run.
  assert (H0 : loadingMeansInFlight (mount now))
    by (intros _; simpl; lia).
  revert H0; generalize (mount now) as w0.
  induction es as [|e es IH]; intros w0 H0; simpl; [exact H0|].
  apply IH, loadingMeansInFlight_step, H0.
Qed.

(** C3, as stated, fails. A scheduled poll that arrives while the first
    request is in flight issues a second one; and once one of the two has
    settled, a manual Refresh issues a third while the other is still in
    flight. *)
Lemma refresh_not_coalesced :
  (requestsInFlight Sample.mounted = 1%nat
   /\ requestsIssued Sample.mounted = 1%nat
   /\ requestsIssued (step Sample.mounted IntervalTick) = 2%nat
   /\ requestsInFlight (step Sample.mounted IntervalTick) = 2%nat)
  /\ (requestsInFlight Sample.oneOfTwoSettled = 1%nat
      /\ requestsIssued (step Sample.oneOfTwoSettled RefreshClick) = 3%nat
      /\ requestsInFlight (step Sample.oneOfTwoSettled RefreshClick)
         = 2%nat).
Proof. repeat split. Qed.

(** C3, amended: the guard is the [loading] cell on the Refresh button.
    In a reachable world where [loading] is true a request is in flight, a
    manual Refresh changes nothing and issues no request, and a scheduled
    poll issues one more request. *)
Theorem refresh_guarded_by_loading_only (now : Date) (w : World) :
  reachable now w ->
  loading w = true ->
  (0 < requestsInFlight w)%nat
  /\ step w RefreshClick = w
  /\ requestsIssued (step w IntervalTick) = S (requestsIssued w)
  /\ requestsInFlight (step w IntervalTick) = S (requestsInFlight w).
Proof.
  intros Hr Hl; split; [now apply (loadingMeansInFlight_reachable now)|].
  simpl; rewrite Hl; auto.
Qed.

End LeafletMapFacts.

(** Witnesses of the statements above, on the sample data. *)

Lemma empty_query_shows_nothing_witness :
  Dashboard.filteredCities Sample.toLowerCase Sample.topCities
    (Dashboard.searchQuery Sample.afterSearch)
  = Sample.topCities
  /\ Dashboard.searchDropdown Sample.toLowerCase Sample.topCities
       Sample.afterSearch = [].
Proof.
  apply (empty_query_shows_nothing Sample.getAQIData Sample.toLowerCase
           Sample.user).
  - reflexivity.
  - eexists; reflexivity.
  - reflexivity.
Defined.

Lemma handleViewChange_from_idle_witness :
  Dashboard.handleViewChange "dashboard" Sample.atStart = Sample.atStart
  /\ Dashboard.viewState
       (Dashboard.handleViewChange "analytics" Sample.atStart)
     = Dashboard.Transitioning "dashboard" "analytics".
Proof.
  split.
  - apply (handleViewChange_from_idle _ "dashboard" "dashboard");
      reflexivity.
  - apply (handleViewChange_from_idle _ "dashboard" "analytics");
      [reflexivity | discriminate].
Defined.

Lemma handleLoadingComplete_transition_witness :
  Dashboard.viewState (Dashboard.handleLoadingComplete Sample.toAnalytics)
  = Dashboard.Idle "analytics"
  /\ Dashboard.handleLoadingComplete Sample.atStart = Sample.atStart.
Proof.
  split.
  - apply (handleLoadingComplete_transition Sample.getAQIData Sample.user
             _ "dashboard" "analytics").
    + exists [Dashboard.ViewChange "analytics"]; reflexivity.
    + reflexivity.
  - apply (handleLoadingComplete_transition Sample.getAQIData Sample.user
             _ "dashboard" "dashboard").
    + exists []; reflexivity.
    + reflexivity.
Defined.

Lemma handleViewChange_while_transitioning_witness :
  Dashboard.viewState
    (Dashboard.handleViewChange "weather" Sample.toAnalytics)
  = Dashboard.Transitioning "dashboard" "weather"
  /\ Dashboard.handleViewChange "dashboard" Sample.toAnalytics
     = Sample.toAnalytics.
Proof.
  split.
  - apply (handleViewChange_while_transitioning _ "dashboard" "analytics"
             "weather"); [reflexivity | discriminate].
  - apply (handleViewChange_while_transitioning _ "dashboard" "analytics"
             "dashboard"); reflexivity.
Defined.

Lemma fetchCitiesData_falls_back_on_throw_witness :
  LeafletMap.tryThrows LeafletMap.Rejected = true
  /\ LeafletMap.cities
       (LeafletMap.fetchCitiesData_resume Sample.clock LeafletMap.Rejected
          Sample.mounted).2
     = LeafletMap.JsonCities (LeafletMap.fallbackCities Sample.clock).
Proof.
  split; [reflexivity|].
  apply (fetchCitiesData_falls_back_on_throw Sample.clock LeafletMap.Rejected
           Sample.mounted).
  reflexivity.
Defined.

Lemma refresh_guarded_by_loading_only_witness :
  LeafletMap.loading Sample.mounted = true
  /\ LeafletMap.step Sample.mounted LeafletMap.RefreshClick = Sample.mounted
  /\ LeafletMap.requestsIssued
       (LeafletMap.step Sample.mounted LeafletMap.IntervalTick) = 2%nat.
Proof.
  split; [reflexivity|].
  destruct (refresh_guarded_by_loading_only Sample.clock Sample.mounted)
    as (_ & Hclick & Htick & _).
  - exists []; reflexivity.
  - reflexivity.
  - split; [exact Hclick | exact Htick].
Defined.

(* ================================================================== *)
(** ** More on the search filter *)
(* ================================================================== *)

Section MoreFilterFacts.
Import JsString Dashboard SearchSpec.

Variable toLowerCase : jsstring -> jsstring.

Abbreviation filteredCities := (Dashboard.filteredCities toLowerCase).

(** A string that contains a query contains every stretch of it. *)
Lemma loweredContains_stretch (q q' name : jsstring) :
  loweredContains toLowerCase q q' ->
  loweredContains toLowerCase q' name ->
  loweredContains toLowerCase q name.
Proof.
  intros (b1 & a1 & H1) (b2 & a2 & H2).
  exists (b2 ++ b1), (a1 ++ a2); rewrite H2, H1.
  now rewrite <- !List.app_assoc.
Qed.

(** X2: when the lower-cased new query contains the lower-cased old
    query, as it does when typing on only adds to the lower-cased text,
    the new result is a sublist of the old one: no city comes back. *)
Theorem filteredCities_narrows (D : list City) (q q' : jsstring) :
  loweredContains toLowerCase q q' ->
  sublist (filteredCities D q') (filteredCities D q).
Proof.
  intros Hq; apply filteredCities_greatest.
  - apply filteredCities_sublist.
  - apply List.Forall_forall; intros c Hc.
    apply filteredCities_In in Hc as [_ Hc].
    now apply (loweredContains_stretch q q').
Qed.


(** X4: typing the full name of a city of the dataset finds it. *)
Theorem filteredCities_finds_full_name (D : list City) (c : City) :
  In c D -> In c (filteredCities D (name c)).
Proof.
  intros Hc; apply filteredCities_In; split; [exact Hc|].
  exists [], []; now rewrite List.app_nil_r.
Qed.

(** X5: a city is found only if its lower-cased name is at least as long
    as the lower-cased query. *)
Theorem filteredCities_query_not_longer
    (D : list City) (q : jsstring) (c : City) :
  In c (filteredCities D q) ->
  (length (toLowerCase q) <= length (toLowerCase (name c)))%nat.
Proof.
  intros Hc; apply filteredCities_In in Hc as [_ (b & a & ->)].
  rewrite !length_app; lia.
Qed.

End MoreFilterFacts.

Lemma filteredCities_narrows_witness :
  sublist
    (Dashboard.filteredCities Sample.toLowerCase Sample.topCities
       (JsString.js "Del"))
    (Dashboard.filteredCities Sample.toLowerCase Sample.topCities
       (JsString.js "de")).
Proof.
  apply (filteredCities_narrows Sample.toLowerCase Sample.topCities
           (JsString.js "de") (JsString.js "Del")).
  exists [], (JsString.js "l"); reflexivity.
Defined.


Lemma filteredCities_finds_full_name_witness :
  In Sample.mumbai
    (Dashboard.filteredCities Sample.toLowerCase Sample.topCities
       (JsString.js "Mumbai")).
Proof.
  apply (filteredCities_finds_full_name Sample.toLowerCase Sample.topCities
           Sample.mumbai).
  right; left; reflexivity.
Defined.

Lemma filteredCities_query_not_longer_witness :
  (length (Sample.toLowerCase (JsString.js "de"))
   <= length (Sample.toLowerCase (JsString.js "Delhi")))%nat.
Proof.
  apply (filteredCities_query_not_longer Sample.toLowerCase Sample.topCities
           (JsString.js "de") Sample.delhi).
  left; reflexivity.
Defined.

(* ================================================================== *)
(** ** More on the Dashboard state *)
(* ================================================================== *)

Section MoreDashboardFacts.
Import JsString Dashboard DashboardRender DashboardTrace SearchSpec.

Context {AQIData : Type}.
Variable getAQIData : jsstring -> AQIData.
Variable toLowerCase : jsstring -> jsstring.

Abbreviation State := (Dashboard.State AQIData).
Abbreviation step := (Dashboard.step getAQIData).
Abbreviation run := (Dashboard.run getAQIData).
Abbreviation init := (Dashboard.init getAQIData).
Abbreviation reachable := (Dashboard.reachable getAQIData).

(** X6: in every reachable state the cell [showSearchResults] is exactly
    "the query is not empty"; so focusing the search box, which sets it to
    that, changes nothing. *)
Theorem showSearchResults_tracks_query (user : User) (st : State) :
  reachable user st ->
  showSearchResults st = (0 <? length (searchQuery st))%nat
  /\ onSearchFocus st = st.
Proof.
  intros Hr.
  assert (H : showSearchResults st = (0 <? length (searchQuery st))%nat).
  { revert st Hr.
    apply (reachable_invariant getAQIData
             (fun s => showSearchResults s
                       = (0 <? length (searchQuery s))%nat)).
    - reflexivity.
    - intros s [city|view| |value| ] IH; simpl; try assumption; try reflexivity.
      unfold handleViewChange; destruct (negb _); simpl; assumption. }
  split; [exact H|].
  unfold onSearchFocus; rewrite <- H; now destruct st.
Qed.

(** X7: every entry of the search dropdown is a city of [topCities] whose
    lower-cased name contains the lower-cased query, and the query is not
    empty; clicking it selects that city and closes the dropdown. *)
Theorem search_result_click
    (user : User) (D : list City) (st : State) (c : City) :
  reachable user st ->
  In c (searchDropdown toLowerCase D st) ->
  (In c D /\ searchQuery st <> []
   /\ loweredContains toLowerCase (searchQuery st) (name c))
  /\ selectedCity (handleCityChange getAQIData (name c) st) = name c
  /\ searchDropdown toLowerCase D (handleCityChange getAQIData (name c) st)
     = [].
Proof.
  intros Hr Hc; split; [|split; [reflexivity|]].
  - pose proof (searchShownOnlyForQuery_reachable getAQIData user st Hr) as Hq.
    unfold searchDropdown, searchShownOnlyForQuery in *.
    destruct (isLoading st); [destruct Hc|].
    destruct (_ && _); [|destruct Hc].
    destruct (showSearchResults st); [|destruct Hc].
    destruct (0 <? _)%nat; [|destruct Hc].
    apply filteredCities_In in Hc as [H1 H2]; auto.
  - unfold searchDropdown; simpl.
    destruct (isLoading st); [reflexivity|]. now destruct (_ && _).
Qed.

(** X8: a transition is always to another view: while the loading screen is
    up the pending target differs from the active view, so completing the
    transition changes the active view. *)
Theorem transition_changes_view (user : User) (st : State) :
  reachable user st ->
  isLoading st = true ->
  targetView st <> activeView st
  /\ activeView (handleLoadingComplete st) <> activeView st.
Proof.
  intros Hr.
  assert (H : isLoading st = true -> targetView st <> activeView st);
    [|intros Hl; split; apply H, Hl].
  revert st Hr.
  apply (reachable_invariant getAQIData
           (fun s => isLoading s = true -> targetView s <> activeView s)).
  - discriminate.
  - intros s [city|view| |value| ] IH; simpl; try assumption.
    + unfold handleViewChange.
      destruct (String.eqb_spec view (activeView s)); simpl; auto.
    + discriminate.
Qed.

(** X9: in a run of events the selected city is the name given by the last
    selection, whatever navigation and search events come with it. *)
Theorem selectedCity_is_last_selection (st : State) (es : list Event) :
  selectedCity (run st es) = lastCityChange (selectedCity st) es.
Proof.
  revert st; induction es as [|e es IH]; intros st; [reflexivity|].
  simpl; rewrite (IH (step st e)).
  destruct e as [city|view| |value| ]; simpl; try reflexivity.
  unfold handleViewChange; now destruct (negb _).
Qed.

(** X10: the header has a title exactly for the six view names it knows, and
    [renderContent] falls back to the dashboard panels for every view
    name other than the five it has a case for. *)
Theorem unknown_view_renders_dashboard_panels (st : State) :
  (headerTitle st = ""
   <-> ~ In (activeView st)
          ["dashboard"; "ai-predictor"; "analytics"; "weather";
           "calculator"; "about"])
  /\ (renderContent st = DashboardPanels (selectedCity st) (aqiData st)
      <-> ~ In (activeView st)
             ["ai-predictor"; "analytics"; "weather"; "calculator"; "about"]).
Proof.
  unfold headerTitle, renderContent.
  generalize (activeView st) as v; intros v; split.
  - destruct (String.eqb_spec v "dashboard") as [->|H1];
      [split; [discriminate | intros H; exfalso; apply H; simpl; auto]|].
    destruct (String.eqb_spec v "ai-predictor") as [->|H2];
      [split; [discriminate | intros H; exfalso; apply H; simpl; auto]|].
    destruct (String.eqb_spec v "analytics") as [->|H3];
      [split; [discriminate | intros H; exfalso; apply H; simpl; auto]|].
    destruct (String.eqb_spec v "weather") as [->|H4];
      [split; [discriminate | intros H; exfalso; apply H; simpl; auto]|].
    destruct (String.eqb_spec v "calculator") as [->|H5];
      [split; [discriminate | intros H; exfalso; apply H; simpl; auto 7]|].
    destruct (String.eqb_spec v "about") as [->|H6];
      [split; [discriminate | intros H; exfalso; apply H; simpl; auto 7]|].
    split; [|reflexivity].
    intros _ [H|[H|[H|[H|[H|[H|[]]]]]]]; congruence.
  - destruct (String.eqb_spec v "ai-predictor") as [->|H2];
      [split; [discriminate | intros H; exfalso; apply H; simpl; auto]|].
    destruct (String.eqb_spec v "analytics") as [->|H3];
      [split; [discriminate | intros H; exfalso; apply H; simpl; auto]|].
    destruct (String.eqb_spec v "weather") as [->|H4];
      [split; [discriminate | intros H; exfalso; apply H; simpl; auto]|].
    destruct (String.eqb_spec v "calculator") as [->|H5];
      [split; [discriminate | intros H; exfalso; apply H; simpl; auto]|].
    destruct (String.eqb_spec v "about") as [->|H6];
      [split; [discriminate | intros H; exfalso; apply H; simpl; auto 7]|].
    split; [|reflexivity].
    intros _ [H|[H|[H|[H|[H|[]]]]]]; congruence.
Qed.

End MoreDashboardFacts.

(** A view name the page has no case for, reached through the ordinary
    transition: the dashboard panels under an empty title. *)
Example settings_view_has_no_title :
  Dashboard.activeView Scenario.onSettings = "settings"
  /\ DashboardRender.headerTitle Scenario.onSettings = ""
  /\ DashboardRender.renderContent Scenario.onSettings
     = DashboardRender.DashboardPanels (JsString.js "Delhi")
         (JsString.js "Delhi").
Proof. repeat split. Qed.

Lemma showSearchResults_tracks_query_witness :
  Dashboard.showSearchResults Scenario.typedDe = true
  /\ Dashboard.onSearchFocus Scenario.typedDe = Scenario.typedDe.
Proof.
  apply (showSearchResults_tracks_query Sample.getAQIData Sample.user).
  eexists; reflexivity.
Defined.

Lemma search_result_click_witness :
  Dashboard.selectedCity
    (Dashboard.handleCityChange Sample.getAQIData (JsString.js "Delhi")
       Scenario.typedDe)
  = JsString.js "Delhi"
  /\ Dashboard.searchDropdown Sample.toLowerCase Sample.topCities
       (Dashboard.handleCityChange Sample.getAQIData (JsString.js "Delhi")
          Scenario.typedDe)
     = [].
Proof.
  apply (search_result_click Sample.getAQIData Sample.toLowerCase Sample.user
           Sample.topCities Scenario.typedDe Sample.delhi).
  - eexists; reflexivity.
  - left; reflexivity.
Defined.

Lemma transition_changes_view_witness :
  Dashboard.targetView Sample.toAnalytics
  <> Dashboard.activeView Sample.toAnalytics
  /\ Dashboard.activeView (Dashboard.handleLoadingComplete Sample.toAnalytics)
     <> Dashboard.activeView Sample.toAnalytics.
Proof.
  apply (transition_changes_view Sample.getAQIData Sample.user).
  - eexists; reflexivity.
  - reflexivity.
Defined.

(* ================================================================== *)
(** ** Properties of the markers of the map *)
(* ================================================================== *)

Section MapRenderFacts.
Import JsString LeafletMap MapRender.

Lemma Qle_bool_inject_Z (a k : Z) :
  Qle_bool (inject_Z a) (inject_Z k) = (a <=? k)%Z.
Proof. unfold Qle_bool; simpl; now rewrite !Z.mul_1_r. Qed.

(** X11: the dot of a search result and the marker of the map use the same
    bands: two integer AQI values get the same dot class exactly when
    they get the same marker colour. *)
Theorem getAQIColor_bands_agree (a b : Z) :
  DashboardRender.getAQIColorDot a = DashboardRender.getAQIColorDot b
  <-> getAQIColor (inject_Z a) = getAQIColor (inject_Z b).
Proof.
  unfold DashboardRender.getAQIColorDot, getAQIColor.
  change 50%Q with (inject_Z 50); change 100%Q with (inject_Z 100).
  change 150%Q with (inject_Z 150); change 200%Q with (inject_Z 200).
  rewrite !Qle_bool_inject_Z.
  destruct (a <=? 50)%Z, (a <=? 100)%Z, (a <=? 150)%Z, (a <=? 200)%Z,
           (b <=? 50)%Z, (b <=? 100)%Z, (b <=? 150)%Z, (b <=? 200)%Z;
    split; intros H; solve [reflexivity | discriminate H].
Qed.

Lemma existsb_eqb_false (sel : jsstring) (names : list jsstring) :
  ~ In sel names -> existsb (JsString.eqb sel) names = false.
Proof.
  intros H; destruct (existsb _ names) eqn:E; [|reflexivity].
  apply existsb_exists in E as (x & Hx & Heq).
  destruct (eqb_spec sel x); [subst; contradiction | discriminate].
Qed.

(** X12: when the names of the dataset are distinct, exactly one marker is
    drawn as selected if the selected city is in the dataset and none if
    it is not; the selected marker is 45 px wide and every other marker
    is smaller, hovered or not. *)
Theorem selected_marker_unique
    (cs : list CityData) (selectedCity : jsstring)
    (hoveredCity : option jsstring) :
  List.NoDup (map name cs) ->
  length (List.filter (fun m => pulse (icon m))
            (markers cs selectedCity hoveredCity))
  = (if existsb (JsString.eqb selectedCity) (map name cs) then 1 else 0)%nat
  /\ (forall m, In m (markers cs selectedCity hoveredCity) ->
        (pulse (icon m) = true <-> key m = selectedCity)
        /\ (key m = selectedCity -> size (icon m) = 45%Z)
        /\ (key m <> selectedCity -> (size (icon m) < 45)%Z)).
Proof.
  intros Hnd; split.
  - induction cs as [|c cs IH]; [reflexivity|].
    inversion Hnd as [|? ? Hnotin Hnd']; subst.
    specialize (IH Hnd'). unfold markers in *.
    cbn [map List.filter existsb] in *.
    cbn [icon createCustomIcon pulse].
    destruct (eqb_spec selectedCity (name c)) as [->|Hne].
    + cbn [length orb]. rewrite IH, existsb_eqb_false; auto.
    + cbn [orb]. exact IH.
  - intros m Hm. unfold markers in Hm.
    apply in_map_iff in Hm as (c & <- & _); cbn.
    destruct (eqb_spec selectedCity (name c)) as [->|Hne].
    + repeat split; auto; congruence.
    + repeat split; try congruence; intros _.
      destruct (isHoveredCity _ _); reflexivity.
Qed.

(** X13: [MapUpdater] leaves the map where it is exactly when the selected
    city is not in the dataset. *)
Theorem MapUpdater_none_iff_dangling
    (cs : list CityData) (selectedCity : jsstring) :
  MapUpdater cs selectedCity = None <-> ~ In selectedCity (map name cs).
Proof.
  unfold MapUpdater; induction cs as [|c cs IH]; cbn [List.find map].
  - split; [intros _ [] | reflexivity].
  - destruct (eqb_spec (name c) selectedCity) as [->|Hne].
    + split; [discriminate | intros H; exfalso; apply H; now left].
    + rewrite IH; split.
      * intros H [H1|H1]; auto.
      * intros H H1; apply H; now right.
Qed.

Lemma MapUpdater_of_member (cs : list CityData) (c : CityData) :
  List.NoDup (map name cs) ->
  In c cs ->
  MapUpdater cs (name c) = Some (lat c, lng c, 8%Z).
Proof.
  unfold MapUpdater; induction cs as [|a cs IH]; intros Hnd Hc; [destruct Hc|].
  inversion Hnd as [|? ? Hnotin Hnd']; subst.
  cbn [List.find]; destruct Hc as [->|Hc].
  - now rewrite eqb_refl.
  - destruct (eqb_spec (name a) (name c)) as [Heq|Hne].
    + exfalso; apply Hnotin; rewrite Heq; now apply in_map.
    + now apply IH.
Qed.

(** X14: when the names of the dataset are distinct, a click on a marker
    selects its city in the dashboard, and [MapUpdater] then moves the
    map to the position of that very marker, at zoom 8. *)
Theorem marker_click_centres_map
    {AQIData : Type} (getAQIData : jsstring -> AQIData)
    (st : Dashboard.State AQIData)
    (cs : list CityData) (selectedCity : jsstring)
    (hoveredCity : option jsstring) (m : Marker) :
  List.NoDup (map name cs) ->
  In m (markers cs selectedCity hoveredCity) ->
  MapUpdater cs
    (Dashboard.selectedCity
       (Dashboard.handleCityChange getAQIData (onClick m) st))
  = Some (fst (position m), snd (position m), 8%Z).
Proof.
  intros Hnd Hm; unfold markers in Hm.
  apply in_map_iff in Hm as (c & <- & Hc); cbn.
  now apply MapUpdater_of_member.
Qed.

End MapRenderFacts.

Lemma fallback_names_distinct : List.NoDup (map LeafletMap.name Scenario.fallback).
Proof.
  repeat constructor; simpl; intuition discriminate.
Defined.

Lemma selected_marker_unique_witness :
  length (List.filter (fun m => MapRender.pulse (MapRender.icon m))
            (MapRender.markers Scenario.fallback (JsString.js "Hyderabad")
               None)) = 1%nat.
Proof.
  apply (selected_marker_unique Scenario.fallback (JsString.js "Hyderabad")
           None).
  exact fallback_names_distinct.
Defined.

Lemma marker_click_centres_map_witness :
  MapRender.MapUpdater Scenario.fallback
    (Dashboard.selectedCity
       (Dashboard.handleCityChange Sample.getAQIData (JsString.js "Hyderabad")
          Sample.atStart))
  = Some (17.3850%Q, 78.4867%Q, 8%Z).
Proof.
  apply (marker_click_centres_map Sample.getAQIData Sample.atStart
           Scenario.fallback (JsString.js "Delhi") None
           {| MapRender.key := JsString.js "Hyderabad";
              MapRender.position := (17.3850%Q, 78.4867%Q);
              MapRender.icon := MapRender.createCustomIcon 92%Q false false;
              MapRender.onClick := JsString.js "Hyderabad";
              MapRender.onMouseOver := JsString.js "Hyderabad" |}).
  - exact fallback_names_distinct.
  - right; right; left; reflexivity.
Defined.

(* ================================================================== *)
(** ** More on the refresh of the map *)
(* ================================================================== *)

Section MoreRefreshFacts.
Import LeafletMap.

(** X15: a refresh replaces the dataset as a whole: what [cities] holds after
    the request has settled depends on the outcome and the clock alone,
    never on the dataset held before. *)
Theorem refresh_replaces_dataset
    (now : Date) (o : FetchOutcome) (w w' : World) :
  cities (fetchCitiesData_resume now o w).2
  = cities (fetchCitiesData_resume now o w').2.
Proof. destruct o as [|status [[records| |text]|]]; reflexivity. Qed.

(** X16: the time shown as "Updated" moves to the current time whenever a body
    was parsed, also a [null] body that then makes the refresh fall back;
    when [fetch] rejects or the body is not JSON it stays as it was,
    although the dataset is replaced by the fallback records. *)
Theorem refresh_timestamp (now : Date) (o : FetchOutcome) (w : World) :
  lastUpdatedAt (fetchCitiesData_resume now o w).2
  = match o with
    | Responded _ (Some _) => now
    | _ => lastUpdatedAt w
    end
  /\ (o = Rejected \/ (exists status, o = Responded status None) ->
      lastUpdatedAt (fetchCitiesData_resume now o w).2 = lastUpdatedAt w
      /\ cities (fetchCitiesData_resume now o w).2
         = JsonCities (fallbackCities now)).
Proof.
  split.
  - destruct o as [|status [[records| |text]|]]; reflexivity.
  - intros [->|[status ->]]; split; reflexivity.
Qed.

Lemma fetchCitiesData_resume_console
    (now : Date) (o : FetchOutcome) (w : World) :
  exists entry,
    console (fetchCitiesData_resume now o w).2 = console w ++ [entry].
Proof.
  destruct o as [|status [[records| |text]|]]; eexists; reflexivity.
Qed.

(** X17: every settled request writes exactly one line to the console: an
    error line when the [try] block threw, and the success line with the
    stored payload when it did not. *)
Theorem refresh_logs_once (now : Date) (o : FetchOutcome) (w : World) :
  exists entry,
    console (fetchCitiesData_resume now o w).2 = console w ++ [entry]
    /\ (tryThrows o = true -> exists e, entry = ErrorFailed e)
    /\ (tryThrows o = false ->
        entry = LogFetched (cities (fetchCitiesData_resume now o w).2)).
Proof.
  destruct o as [|status [[records| |text]|]]; eexists;
    (split; [reflexivity|]); split; intros H;
    try discriminate H; try reflexivity; eexists; reflexivity.
Qed.

Lemma fetchCitiesData_resume_counters
    (now : Date) (o : FetchOutcome) (w : World) :
  requestsIssued (fetchCitiesData_resume now o w).2 = requestsIssued w
  /\ requestsInFlight (fetchCitiesData_resume now o w).2 = requestsInFlight w.
Proof. destruct o as [|status [[records| |text]|]]; split; reflexivity. Qed.

Lemma world_run_invariant (P : World -> Prop) (now : Date) :
  P (mount now) ->
  (forall w e, P w -> P (step w e)) ->
  forall w, reachable now w -> P w.
Proof.
  intros H0 Hstep w [es ->]; unfold run.
  revert H0; generalize (mount now) as w0.
  induction es as [|e es IH]; intros w0 H0; simpl; [exact H0|].
  apply IH, Hstep, H0.
Qed.

(** X18: in every reachable world each request issued is either still in
    flight or has left its one line in the console; and the map is on
    screen ([loading] is false) only after a request has settled, so the
    initial empty dataset is never drawn before a first answer or
    failure. *)
Theorem requests_accounted_for (now : Date) (w : World) :
  reachable now w ->
  requestsIssued w = (requestsInFlight w + length (console w))%nat
  /\ (loading w = false -> console w <> []).
Proof.
  revert w; apply world_run_invariant.
  - split; [reflexivity | discriminate].
  - intros w e [Hcount Hshown]; destruct e as [| |now' o|city|]; simpl.
    + split; [lia | discriminate].
    + destruct (loading w) eqn:Hl; simpl; [now rewrite Hl|].
      split; [lia | discriminate].
    + destruct (requestsInFlight w) as [|n] eqn:Hn; [now rewrite Hn|].
      destruct (fetchCitiesData_resume_console now' o
        {| cities := cities w; loading := loading w;
           lastUpdatedAt := lastUpdatedAt w; hoveredCity := hoveredCity w;
           console := console w; requestsIssued := requestsIssued w;
           requestsInFlight := n |}) as (entry & Hc).
      rewrite Hc; cbn [console]; split.
      * rewrite length_app; cbn [length].
        destruct (fetchCitiesData_resume_counters now' o
          {| cities := cities w; loading := loading w;
             lastUpdatedAt := lastUpdatedAt w; hoveredCity := hoveredCity w;
             console := console w; requestsIssued := requestsIssued w;
             requestsInFlight := n |}) as [-> ->].
        cbn; lia.
      * intros _ H; now apply app_eq_nil in H as [_ H].
    + split; assumption.
    + split; assumption.
Qed.

End MoreRefreshFacts.

Lemma refresh_timestamp_witness :
  LeafletMap.lastUpdatedAt
    (LeafletMap.fetchCitiesData_resume
       {| LeafletMap.epochMs := 300000;
          LeafletMap.toISOString := "1970-01-01T00:05:00.000Z" |}
       LeafletMap.Rejected Sample.mounted).2
  = Sample.clock.
Proof.
  apply (refresh_timestamp
           {| LeafletMap.epochMs := 300000;
              LeafletMap.toISOString := "1970-01-01T00:05:00.000Z" |}
           LeafletMap.Rejected Sample.mounted).
  left; reflexivity.
Defined.

Lemma refresh_logs_once_witness :
  exists entry,
    LeafletMap.console
      (LeafletMap.fetchCitiesData_resume Sample.clock LeafletMap.Rejected
         Sample.mounted).2
    = LeafletMap.console Sample.mounted ++ [entry]
    /\ (LeafletMap.tryThrows LeafletMap.Rejected = true ->
        exists e, entry = LeafletMap.ErrorFailed e)
    /\ (LeafletMap.tryThrows LeafletMap.Rejected = false ->
        entry = LeafletMap.LogFetched
                  (LeafletMap.cities
                     (LeafletMap.fetchCitiesData_resume Sample.clock
                        LeafletMap.Rejected Sample.mounted).2)).
Proof.
  exact (refresh_logs_once Sample.clock LeafletMap.Rejected Sample.mounted).
Defined.

Lemma requests_accounted_for_witness :
  LeafletMap.requestsIssued Sample.oneOfTwoSettled
  = (LeafletMap.requestsInFlight Sample.oneOfTwoSettled
     + length (LeafletMap.console Sample.oneOfTwoSettled))%nat
  /\ (LeafletMap.loading Sample.oneOfTwoSettled = false ->
      LeafletMap.console Sample.oneOfTwoSettled <> []).
Proof.
  apply (requests_accounted_for Sample.clock Sample.oneOfTwoSettled).
  eexists; reflexivity.
Defined.

(* ================================================================== *)
(** ** Properties of the App component *)
(* ================================================================== *)

Section AppFacts.
Import LeafletMap App.

Lemma app_run_invariant (P : State -> Prop) :
  (forall st e, P st -> P (step st e)) ->
  forall es st, P st -> P (run st es).
Proof.
  intros Hstep es; induction es as [|e es IH]; intros st Hst; simpl.
  - exact Hst.
  - apply IH, Hstep, Hst.
Qed.

Lemma step_PredictSettled_view (st : State) (o : PredictOutcome) :
  currentView (step st (PredictSettled o)) = currentView st
  /\ user (step st (PredictSettled o)) = user st.
Proof.
  simpl; destruct (predictInFlight st); [split; reflexivity|].
  destruct o as [|status [data|]]; split; reflexivity.
Qed.

(** X19: the app never renders nothing: in every reachable state it shows the
    form, the loading screen or the dashboard, because a user is set by
    the time the view leaves the form. *)
Theorem app_never_blank (st : State) :
  reachable st -> render st <> Nothing.
Proof.
  intros [es ->].
  assert (H : currentView (run init es) = form
              \/ user (run init es) <> None).
  { apply app_run_invariant; [|left; reflexivity].
    intros s e IH; destruct e as [userData| |o].
    - right; discriminate.
    - simpl; destruct (user s) eqn:Hu; [|rewrite Hu; exact IH].
      right; simpl; rewrite Hu; discriminate.
    - destruct (step_PredictSettled_view s o) as [-> ->]; exact IH. }
  unfold render; destruct H as [-> | H]; [discriminate|].
  destruct (currentView _), (user _); congruence.
Qed.

(** X20: the answer of the prediction request, whatever it is and whenever it
    comes, never changes what is on screen. *)
Theorem prediction_never_shown (st : State) (o : PredictOutcome) :
  render (step st (PredictSettled o)) = render st.
Proof.
  unfold render; now destruct (step_PredictSettled_view st o) as [-> ->].
Qed.


(** A form submitted again while the dashboard is on screen brings the
    loading screen back, for the new user. *)
Example resubmit_leaves_dashboard :
  render Scenario.onDashboard = DashboardScreen Sample.user
  /\ render (step Scenario.onDashboard (Submit Scenario.ravi))
     = LoadingScreen Scenario.ravi.
Proof. split; reflexivity. Qed.

(** X22: after the form was submitted, the loading screen leads to the
    dashboard of the submitted user whether the prediction request has
    succeeded, has failed or is still pending; on a failure
    [handleFormSubmit] rejects and changes no state cell. *)
Theorem submit_reaches_dashboard (u : Dashboard.User) (o : PredictOutcome) :
  render (run init [Submit u; LoadingDone]) = DashboardScreen u
  /\ render (run init [Submit u; PredictSettled o; LoadingDone])
     = DashboardScreen u
  /\ render (run init [Submit u; LoadingDone; PredictSettled o])
     = DashboardScreen u
  /\ (forall st,
        (o = PredictRejected \/ exists status, o = PredictResponded status None)
        -> (exists e, (handleSubmit_resume o st).1 = Thrown e)
           /\ (handleSubmit_resume o st).2 = st).
Proof.
  split; [reflexivity|]; split; [|split].
  - destruct o as [|status [data|]]; reflexivity.
  - destruct o as [|status [data|]]; reflexivity.
  - intros st [->|[status ->]]; split; try reflexivity; eexists; reflexivity.
Qed.

End AppFacts.

Lemma app_never_blank_witness :
  App.render Scenario.submitted <> App.Nothing.
Proof.
  apply (app_never_blank Scenario.submitted).
  eexists; reflexivity.
Defined.


Lemma submit_reaches_dashboard_witness :
  App.render
    (App.run App.init
       [App.Submit Sample.user; App.PredictSettled App.PredictRejected;
        App.LoadingDone])
  = App.DashboardScreen Sample.user.
Proof.
  apply (submit_reaches_dashboard Sample.user App.PredictRejected).
Defined.
